(** * flutter_local_db: the Linux plugin registration shim

    A shallow embedding of [linux/flutter_local_db_plugin.cc] and the
    properties its specification states about it.

    The translation unit defines
    - the instance struct [_FlutterLocalDbPlugin], whose only member is the
      [GObject parent_instance] header;
    - the GObject type boilerplate, through [G_DEFINE_TYPE];
    - two empty initialisers, [flutter_local_db_plugin_class_init] and
      [flutter_local_db_plugin_init];
    - the exported entry point
      [flutter_local_db_plugin_register_with_registrar], whose body is a
      single comment.

    Everything else the properties talk about (the registrar, its messenger,
    the type registry, the allocator) belongs to the host: GLib and the
    Flutter Linux embedder.  The host is an interface here ([Host]), and the
    process state that the plugin's functions could touch is an explicit
    [World] threaded through a small state-and-failure monad. *)

From stdpp Require Import base option list gmap strings.
From Stdlib Require Import ZArith Lia.

Local Open Scope Z_scope.

(** ** Machine-level values *)

(** Pointers ([FlPluginRegistrar*], [FlutterLocalDbPlugin*], [gpointer]) are
    addresses; [NULL] is address zero. *)
Definition Addr : Type := Z.
Definition NULL : Addr := 0.

(** [GType] is GLib's [gsize]-wide type identifier; [G_TYPE_INVALID] is 0. *)
Definition GType : Type := Z.
Definition G_TYPE_INVALID : GType := 0.

(** ** The host interface

    What the plugin file takes from GLib without defining it.  The layout of
    the [GObject] header, the representation of the type registry, the
    registration primitive, the base-class instance initialiser and the
    allocator are the host's; the development is parametric in them. *)
Class Host : Type := {
  (** the base-type header every GObject instance starts with *)
  GObject : Type;
  (** the process-wide table of registered types *)
  TypeRegistry : Type;
  (** [g_object_get_type ()], the parent type handed to [G_DEFINE_TYPE] *)
  g_object_get_type : GType;
  (** [g_type_register_static_simple (parent, name, ...)]: the identifier
      of the new type, [G_TYPE_INVALID] when the registry refuses it *)
  g_type_register_static_simple :
    GType -> string -> TypeRegistry -> GType * TypeRegistry;
  (** [g_type_class_peek_parent (klass)] *)
  g_type_class_peek_parent : Addr -> Addr;
  (** the header of an instance of the given type as the base class's
      instance initialiser leaves it *)
  g_object_init : GType -> GObject;
  (** the address the allocator hands out, given the live instances *)
  g_type_create_instance : gset Addr -> Addr
}.

(** ** Data model *)

(** [struct _FlutterLocalDbPlugin { GObject parent_instance; };] *)
Record FlutterLocalDbPlugin `{Host} : Type := mkFlutterLocalDbPlugin {
  parent_instance : GObject
}.
Arguments mkFlutterLocalDbPlugin {_} parent_instance.

(** Modelled from the spec: what can be observed of a registrar.  The spec
    speaks of a registrar "through which a plugin could attach
    communication channels" and of a mock registrar's "recorded
    interactions list"; the [FlPluginRegistrar] API itself is declared by
    the Flutter embedder, not by this repository. *)
Inductive Interaction : Type :=
  | GetMessenger
  | GetTextureRegistrar
  | GetView
  | SetMessageHandler (channel : string).

(** Modelled from the spec: a registrar as seen by other components, the
    calls made on it so far (oldest first) and the channels of its
    messenger that have a handler attached. *)
Record Registrar : Type := mkRegistrar {
  interactions : list Interaction;
  channels : gset string
}.

(** The process state the functions of the file run in. *)
Record World `{Host} : Type := mkWorld {
  (** [static gsize static_g_define_type_id], of the [_get_type] function
      that [G_DEFINE_TYPE] generates *)
  static_g_define_type_id : GType;
  (** [static gpointer flutter_local_db_plugin_parent_class], also generated
      by [G_DEFINE_TYPE] *)
  flutter_local_db_plugin_parent_class : Addr;
  (** the host's type registry *)
  type_registry : TypeRegistry;
  (** the live plugin instances, by address *)
  instances : gmap Addr FlutterLocalDbPlugin;
  (** the registrar objects of the host, by address *)
  registrars : gmap Addr Registrar
}.
Arguments mkWorld {_} _ _ _ _ _.

(** ** Calls that may fail *)

(** The ways a C++ function can end other than by returning. *)
Inductive Condition : Type :=
  | Thrown (what : string)
  | Signalled (signo : Z)
  | ErrorReported (message : string).

Inductive Outcome `{Host} (A : Type) : Type :=
  | Returned (a : A) (w : World)
  | Failed (c : Condition).
Arguments Returned {_ _} a w.
Arguments Failed {_ _} c.

Definition M `{Host} (A : Type) : Type := World -> Outcome A.

Definition ret `{Host} {A : Type} (a : A) : M A := fun w => Returned a w.

Definition bind `{Host} {A B : Type} (m : M A) (k : A -> M B) : M B :=
  fun w =>
    match m w with
    | Returned a w' => k a w'
    | Failed c => Failed c
    end.

Notation "x <- m ;; k" := (bind m (fun x => k))
  (at level 100, m at next level, right associativity).
Notation "m ;; k" := (bind m (fun _ => k))
  (at level 100, right associativity).

Definition SIGSEGV : Z := 11.

Section Plugin.
Context `{Host}.

(** ** State accessors *)

Definition set_static_g_define_type_id (t : GType) (w : World) : World :=
  mkWorld t (flutter_local_db_plugin_parent_class w) (type_registry w)
          (instances w) (registrars w).

Definition set_parent_class (p : Addr) (w : World) : World :=
  mkWorld (static_g_define_type_id w) p (type_registry w)
          (instances w) (registrars w).

Definition set_type_registry (r : TypeRegistry) (w : World) : World :=
  mkWorld (static_g_define_type_id w)
          (flutter_local_db_plugin_parent_class w) r
          (instances w) (registrars w).

Definition set_instances (i : gmap Addr FlutterLocalDbPlugin) (w : World)
  : World :=
  mkWorld (static_g_define_type_id w)
          (flutter_local_db_plugin_parent_class w) (type_registry w)
          i (registrars w).

Definition set_registrars (r : gmap Addr Registrar) (w : World) : World :=
  mkWorld (static_g_define_type_id w)
          (flutter_local_db_plugin_parent_class w) (type_registry w)
          (instances w) r.

(** ** The functions of [flutter_local_db_plugin.cc] *)

(** [static void flutter_local_db_plugin_class_init
       (FlutterLocalDbPluginClass* klass) { }] *)
Definition flutter_local_db_plugin_class_init (klass : Addr) : M unit :=
  ret tt.

(** [static void flutter_local_db_plugin_init (FlutterLocalDbPlugin* self)
       { }] *)
Definition flutter_local_db_plugin_init (self : Addr) : M unit :=
  ret tt.

(** [void flutter_local_db_plugin_register_with_registrar
       (FlPluginRegistrar* registrar) {
         // This plugin is FFI-based, so we don't need to register method
         // channels
       }] *)
Definition flutter_local_db_plugin_register_with_registrar
    (registrar : Addr) : M unit :=
  ret tt.

(** ** The expansion of [G_DEFINE_TYPE] *)

(** Modelled from the spec: the "type-registration hook invoked by the
    host's object-system bootstrap, returning an opaque type identifier".
    The file obtains it from
    [G_DEFINE_TYPE (FlutterLocalDbPlugin, flutter_local_db_plugin,
    g_object_get_type ())]; the macro is GLib's and its text is not part of
    this repository.  The four definitions below follow the expansion that
    GLib documents for it: a once-guarded [_get_type], the registration it
    performs the first time, and the class initialiser wrapper that records
    the parent class before calling the file's own [_class_init].  The file
    attaches no private data, so the private-offset adjustment of the
    wrapper never runs and is left out.  Calls come from one thread, as the
    spec has it; the lock behind [g_once_init_enter] is not represented. *)
Definition flutter_local_db_plugin_class_intern_init (klass : Addr)
  : M unit :=
  fun w =>
    flutter_local_db_plugin_class_init klass
      (set_parent_class (g_type_class_peek_parent klass) w).

Definition flutter_local_db_plugin_get_type_once : M GType :=
  fun w =>
    let '(g_define_type_id, registry') :=
      g_type_register_static_simple
        g_object_get_type "FlutterLocalDbPlugin" (type_registry w) in
    Returned g_define_type_id (set_type_registry registry' w).

(** [g_once_init_enter (&static_g_define_type_id)]: true while the static
    is still zero. *)
Definition g_once_init_enter : M bool :=
  fun w => Returned (bool_decide (static_g_define_type_id w = 0)) w.

(** [g_once_init_leave (&static_g_define_type_id, result)]: stores the
    result; a zero result is refused ([g_return_if_fail (result != 0)]) and
    the static stays as it was. *)
Definition g_once_init_leave (result : GType) : M unit :=
  fun w =>
    if decide (result = 0) then Returned tt w
    else Returned tt (set_static_g_define_type_id result w).

Definition flutter_local_db_plugin_get_type : M GType :=
  enter <- g_once_init_enter ;;
  (if enter : bool
   then g_define_type_id <- flutter_local_db_plugin_get_type_once ;;
        g_once_init_leave g_define_type_id
   else ret tt) ;;
  (fun w => Returned (static_g_define_type_id w) w).

(** ** Construction by the host *)

(** Modelled from the spec: the plugin object is "created by the host
    framework at plugin-load time".  The file has no constructor of its
    own; an instance comes from the host's [g_object_new (type, NULL)],
    which refuses the invalid type, allocates the instance, lets the base
    class initialise the header and then runs the file's
    [flutter_local_db_plugin_init] on it. *)
Definition g_object_new (object_type : GType) : M Addr :=
  if decide (object_type = G_TYPE_INVALID) then ret NULL
  else
    fun w =>
      let self := g_type_create_instance (dom (instances w)) in
      (flutter_local_db_plugin_init self ;; ret self)
        (set_instances
           (<[self := mkFlutterLocalDbPlugin (g_object_init object_type)]>
              (instances w)) w).

(** Modelled from the spec: an operation of the base class on an existing
    instance (reference counting, object data, ...), which rewrites the
    header of that instance and nothing else.  On an address that holds no
    instance it is a memory fault. *)
Definition g_object_update (self : Addr) (f : GObject -> GObject) : M unit :=
  fun w =>
    match instances w !! self with
    | Some obj =>
        Returned tt
          (set_instances
             (<[self := mkFlutterLocalDbPlugin (f (parent_instance obj))]>
                (instances w)) w)
    | None => Failed (Signalled SIGSEGV)
    end.

(** What can be done to one instance: the file's instance initialiser, or a
    base-class operation on its header. *)
Inductive InstanceOp : Type :=
  | OpInit
  | OpBase (f : GObject -> GObject).

Definition instance_op (self : Addr) (op : InstanceOp) : M unit :=
  match op with
  | OpInit => flutter_local_db_plugin_init self
  | OpBase f => g_object_update self f
  end.

Fixpoint instance_ops (self : Addr) (ops : list InstanceOp) : M unit :=
  match ops with
  | [] => ret tt
  | op :: ops' => instance_op self op ;; instance_ops self ops'
  end.

(** ** The entry points as the host drives them *)

Inductive Call : Type :=
  | CallGetType
  | CallClassInit (klass : Addr)
  | CallNew
  | CallRegister (registrar : Addr).

Definition exec (c : Call) : M unit :=
  match c with
  | CallGetType => _ <- flutter_local_db_plugin_get_type ;; ret tt
  | CallClassInit klass => flutter_local_db_plugin_class_intern_init klass
  | CallNew =>
      object_type <- flutter_local_db_plugin_get_type ;;
      _ <- g_object_new object_type ;; ret tt
  | CallRegister registrar =>
      flutter_local_db_plugin_register_with_registrar registrar
  end.

Fixpoint exec_all (cs : list Call) : M unit :=
  match cs with
  | [] => ret tt
  | c :: cs' => exec c ;; exec_all cs'
  end.

(** [n] calls of the same function in a row. *)
Fixpoint repeat_call (n : nat) (m : M unit) : M unit :=
  match n with
  | O => ret tt
  | S k => m ;; repeat_call k m
  end.

(** ** What a channel-based plugin would do

    Modelled from the spec: the registrar is the handle "through which a
    plugin could attach communication channels".  This file attaches none;
    the two host operations below, and the registration function of a
    plugin that does use them, are here only as the contrast against which
    the frame properties of the empty function are read. *)
Definition fl_plugin_registrar_get_messenger (registrar : Addr) : M Addr :=
  fun w =>
    match registrars w !! registrar with
    | Some r =>
        Returned registrar
          (set_registrars
             (<[registrar :=
                  mkRegistrar (interactions r ++ [GetMessenger]) (channels r)]>
                (registrars w)) w)
    | None => Failed (Signalled SIGSEGV)
    end.

Definition fl_binary_messenger_set_message_handler_on_channel
    (messenger : Addr) (channel : string) : M unit :=
  fun w =>
    match registrars w !! messenger with
    | Some r =>
        Returned tt
          (set_registrars
             (<[messenger :=
                  mkRegistrar (interactions r ++ [SetMessageHandler channel])
                              ({[channel]} ∪ channels r)]>
                (registrars w)) w)
    | None => Failed (Signalled SIGSEGV)
    end.

Definition channel_based_register_with_registrar (registrar : Addr)
  : M unit :=
  messenger <- fl_plugin_registrar_get_messenger registrar ;;
  fl_binary_messenger_set_message_handler_on_channel
    messenger "flutter_local_db".

(** ** Registration states *)


(** Two worlds that differ at most in the instance stored at one address:
    the statics, the type registry, the registrars and every other instance
    are the same. *)
Definition same_outside (self : Addr) (w w' : World) : Prop :=
  static_g_define_type_id w' = static_g_define_type_id w
  /\ flutter_local_db_plugin_parent_class w'
     = flutter_local_db_plugin_parent_class w
  /\ type_registry w' = type_registry w
  /\ registrars w' = registrars w
  /\ forall other : Addr,
       other <> self -> instances w' !! other = instances w !! other.

(** The state of the hook relative to the start of the process [w0] and the
    identifier [t] the registry gives in [w0]: either nothing has been
    registered yet, or the static holds [t]. *)
Definition hook_state (w0 : World) (t : GType) (w : World) : Prop :=
  (static_g_define_type_id w = G_TYPE_INVALID
   /\ type_registry w = type_registry w0)
  \/ static_g_define_type_id w = t.

(** A channel of a registrar's messenger that other components can reach. *)
Definition channel_exists (w : World) (registrar : Addr) (channel : string)
  : Prop :=
  match registrars w !! registrar with
  | Some r => channel ∈ channels r
  | None => False
  end.

(** ** Views of a call history *)

(** The history with the calls of the registration function left out. *)
Fixpoint without_register (history : list Call) : list Call :=
  match history with
  | [] => []
  | CallRegister _ :: rest => without_register rest
  | c :: rest => c :: without_register rest
  end.

(** A run of instance operations with the calls of the file's instance
    initialiser left out. *)
Fixpoint without_init (ops : list InstanceOp) : list InstanceOp :=
  match ops with
  | [] => []
  | OpInit :: rest => without_init rest
  | op :: rest => op :: without_init rest
  end.

(** How many constructions the host has asked for. *)
Fixpoint count_new (history : list Call) : nat :=
  match history with
  | [] => O
  | CallNew :: rest => S (count_new rest)
  | _ :: rest => count_new rest
  end.

(** The class structure of the latest class initialisation, if the class
    has been initialised at all. *)
Fixpoint last_class_init (history : list Call) : option Addr :=
  match history with
  | [] => None
  | CallClassInit klass :: rest =>
      match last_class_init rest with
      | Some later => Some later
      | None => Some klass
      end
  | _ :: rest => last_class_init rest
  end.

(** An instance of the given type just after construction: the header as
    the base class initialised it, and nothing more. *)
Definition bare_instance (object_type : GType) : FlutterLocalDbPlugin :=
  mkFlutterLocalDbPlugin (g_object_init object_type).

End Plugin.

(** ** A concrete host

    A small host whose contracts can be checked by evaluation: the type
    registry is a table from type names to identifiers that refuses a name
    it already holds, a header is the pair of the instance's type and its
    reference count, and the allocator returns an address that is neither
    [NULL] nor live. *)
Definition reference_register (parent : GType) (name : string)
    (registry : gmap string GType) : GType * gmap string GType :=
  match registry !! name with
  | Some _ => (G_TYPE_INVALID, registry)
  | None =>
      let id := 4 * (Z.of_nat (size registry) + 64) in
      (id, <[name := id]> registry)
  end.

Definition reference_host : Host := {|
  GObject := GType * Z;
  TypeRegistry := gmap string GType;
  g_object_get_type := 80;
  g_type_register_static_simple := reference_register;
  g_type_class_peek_parent := fun klass => klass - 136;
  g_object_init := fun object_type => (object_type, 1);
  g_type_create_instance := fun live => fresh ({[NULL]} ∪ live)
|}.

(** The process at start-up on the concrete host: nothing registered, no
    instance, and one registrar, at address 4096, on which nothing has been
    called yet. *)
Definition reference_world : @World reference_host :=
  @mkWorld reference_host G_TYPE_INVALID NULL ∅ ∅
           {[ 4096 := mkRegistrar [] ∅ ]}.

(** The same process when a type of the name "FlutterLocalDbPlugin" is in
    the registry before the hook has run (a second copy of the plugin
    library loaded into the process, say), so that the registry refuses
    the registration. *)
Definition reference_taken_world : @World reference_host :=
  @mkWorld reference_host G_TYPE_INVALID NULL
           {[ "FlutterLocalDbPlugin" := 256 ]} ∅
           {[ 4096 := mkRegistrar [] ∅ ]}.

(** * Properties *)

Section Properties.
Context `{Host}.

Implicit Types (w : World) (registrar self klass : Addr).

(** ** The three functions of the file are the identity on the world *)

Lemma register_with_registrar_returns registrar w :
  flutter_local_db_plugin_register_with_registrar registrar w
  = Returned tt w.
Proof. reflexivity. Qed.

Lemma class_init_returns klass w :
  flutter_local_db_plugin_class_init klass w = Returned tt w.
Proof. reflexivity. Qed.

Lemma init_returns self w :
  flutter_local_db_plugin_init self w = Returned tt w.
Proof. reflexivity. Qed.

Lemma bind_returned {A B : Type} (m : M A) (k : A -> M B) w a w' :
  m w = Returned a w' -> (x <- m ;; k x) w = k a w'.
Proof. intros Hm. unfold bind. now rewrite Hm. Qed.

(** C1. For every valid registrar handle, the registration function
    returns, the world it returns is the world it was called in, and the
    registrar behind the handle is the one that was there before; a mock
    registrar on which nothing had been recorded still has an empty list of
    recorded interactions. *)
Theorem register_no_side_effects registrar (r : Registrar) w :
  registrars w !! registrar = Some r ->
  exists w',
    flutter_local_db_plugin_register_with_registrar registrar w
    = Returned tt w'
    /\ w' = w
    /\ registrars w' !! registrar = Some r
    /\ (interactions r = [] ->
        interactions <$> registrars w' !! registrar = Some []).
Proof.
  intros Hvalid. exists w.
  rewrite register_with_registrar_returns, Hvalid.
  repeat split. intros Hfresh. simpl. now rewrite Hfresh.
Qed.

(** C2. The registration function cannot fail: for every handle and every
    world it returns normally, and its outcome is no thrown exception, no
    signal and no reported error. *)
Theorem register_never_fails registrar w :
  (exists w',
     flutter_local_db_plugin_register_with_registrar registrar w
     = Returned tt w')
  /\ forall c : Condition,
       flutter_local_db_plugin_register_with_registrar registrar w
       <> Failed c.
Proof.
  split.
  - exists w. apply register_with_registrar_returns.
  - intros c. rewrite register_with_registrar_returns. discriminate.
Qed.

(** C3. The registration function installs no handler and creates no
    channel: every channel that exists on any registrar's messenger after
    the call existed before it, and no registrar has a new recorded
    interaction. *)
Theorem register_installs_no_channel registrar w :
  exists w',
    flutter_local_db_plugin_register_with_registrar registrar w
    = Returned tt w'
    /\ (forall (other : Addr) (channel : string),
          channel_exists w' other channel -> channel_exists w other channel)
    /\ (forall other : Addr,
          interactions <$> registrars w' !! other
          = interactions <$> registrars w !! other).
Proof.
  exists w. rewrite register_with_registrar_returns. auto.
Qed.

(** C8. The registration function is total over all handles: for a valid
    handle, an unknown one and [NULL] alike it returns, leaving the world
    as it was; its outcome does not depend on the handle, and it is the
    same whatever the table of registrars holds, so nothing is read through
    the handle and nothing of it is kept. *)
Theorem register_total_over_handles registrar w :
  flutter_local_db_plugin_register_with_registrar registrar w
  = Returned tt w
  /\ flutter_local_db_plugin_register_with_registrar NULL w = Returned tt w
  /\ (forall other : Addr,
        flutter_local_db_plugin_register_with_registrar other w
        = flutter_local_db_plugin_register_with_registrar registrar w)
  /\ (forall table : gmap Addr Registrar,
        flutter_local_db_plugin_register_with_registrar registrar
          (set_registrars table w)
        = Returned tt (set_registrars table w)).
Proof. repeat split. Qed.

Lemma repeat_register_returns (n : nat) registrar w :
  repeat_call n (flutter_local_db_plugin_register_with_registrar registrar) w
  = Returned tt w.
Proof.
  induction n as [|n IH]; [reflexivity|].
  cbn [repeat_call].
  now rewrite (bind_returned _ _ w tt w
                 (register_with_registrar_returns registrar w)).
Qed.

(** C9. The registration function is idempotent: for every handle and
    every [n >= 1], [n] calls in a row have the outcome of one call. *)
Theorem register_idempotent (n : nat) registrar w :
  (1 <= n)%nat ->
  repeat_call n (flutter_local_db_plugin_register_with_registrar registrar) w
  = flutter_local_db_plugin_register_with_registrar registrar w.
Proof.
  intros _. rewrite repeat_register_returns.
  symmetry. apply register_with_registrar_returns.
Qed.

(** ** The type-registration hook *)

(** Once the static holds an identifier, the hook returns it and touches
    nothing. *)
Lemma get_type_initialised w :
  static_g_define_type_id w <> G_TYPE_INVALID ->
  flutter_local_db_plugin_get_type w
  = Returned (static_g_define_type_id w) w.
Proof.
  intros Hset. unfold flutter_local_db_plugin_get_type, bind, g_once_init_enter.
  rewrite bool_decide_eq_false_2 by exact Hset. reflexivity.
Qed.

(** The first call registers the type and stores what the registry
    returned. *)
Lemma get_type_first w (t : GType) (registry' : TypeRegistry) :
  static_g_define_type_id w = G_TYPE_INVALID ->
  g_type_register_static_simple
    g_object_get_type "FlutterLocalDbPlugin" (type_registry w)
  = (t, registry') ->
  t <> G_TYPE_INVALID ->
  flutter_local_db_plugin_get_type w
  = Returned t
      (set_static_g_define_type_id t (set_type_registry registry' w)).
Proof.
  intros Hzero Hreg Hvalid.
  unfold flutter_local_db_plugin_get_type, bind, g_once_init_enter.
  rewrite bool_decide_eq_true_2 by exact Hzero.
  unfold flutter_local_db_plugin_get_type_once. rewrite Hreg.
  unfold g_once_init_leave. destruct (decide (t = 0)) as [Ht|_].
  - contradiction.
  - reflexivity.
Qed.

(** The construction of an instance always returns. *)
Lemma g_object_new_returns (object_type : GType) w :
  exists self w',
    g_object_new object_type w = Returned self w'
    /\ static_g_define_type_id w' = static_g_define_type_id w
    /\ type_registry w' = type_registry w.
Proof.
  unfold g_object_new. destruct (decide (object_type = G_TYPE_INVALID)).
  - exists NULL, w. auto.
  - eexists _, _. split; [reflexivity|]. auto.
Qed.

Lemma get_type_hook_state (w0 : World) (t : GType) w :
  t <> G_TYPE_INVALID ->
  (g_type_register_static_simple
     g_object_get_type "FlutterLocalDbPlugin" (type_registry w0)).1 = t ->
  hook_state w0 t w ->
  exists w',
    flutter_local_db_plugin_get_type w = Returned t w'
    /\ static_g_define_type_id w' = t.
Proof.
  intros Hvalid Hreg [[Hzero Hsame]|Hset].
  - destruct (g_type_register_static_simple g_object_get_type
                "FlutterLocalDbPlugin" (type_registry w0))
      as [t' registry'] eqn:Hcall.
    simpl in Hreg. subst t'. rewrite <- Hsame in Hcall.
    eexists. split; [exact (get_type_first w t registry' Hzero Hcall Hvalid)|].
    reflexivity.
  - exists w. split; [|exact Hset].
    rewrite get_type_initialised by congruence. now rewrite Hset.
Qed.

Lemma exec_hook_state (w0 : World) (t : GType) (c : Call) w :
  t <> G_TYPE_INVALID ->
  (g_type_register_static_simple
     g_object_get_type "FlutterLocalDbPlugin" (type_registry w0)).1 = t ->
  hook_state w0 t w ->
  exists w', exec c w = Returned tt w' /\ hook_state w0 t w'.
Proof.
  intros Hvalid Hreg Hst.
  destruct c as [| klass | | registrar]; cbn [exec].
  - destruct (get_type_hook_state w0 t w Hvalid Hreg Hst) as (w' & Hget & Hw').
    exists w'. split; [|now right].
    now rewrite (bind_returned _ _ w t w' Hget).
  - eexists. split; [reflexivity|]. exact Hst.
  - destruct (get_type_hook_state w0 t w Hvalid Hreg Hst) as (w' & Hget & Hw').
    destruct (g_object_new_returns t w') as (self & w'' & Hnew & Hs & _).
    exists w''. split; [|right; congruence].
    rewrite (bind_returned _ _ w t w' Hget).
    now rewrite (bind_returned _ _ w' self w'' Hnew).
  - exists w. split; [reflexivity|exact Hst].
Qed.

Lemma exec_all_hook_state (w0 : World) (t : GType) (cs : list Call) :
  t <> G_TYPE_INVALID ->
  (g_type_register_static_simple
     g_object_get_type "FlutterLocalDbPlugin" (type_registry w0)).1 = t ->
  forall w, hook_state w0 t w ->
  exists w', exec_all cs w = Returned tt w' /\ hook_state w0 t w'.
Proof.
  intros Hvalid Hreg. induction cs as [|c cs IH]; intros w Hst.
  - exists w. split; [reflexivity|exact Hst].
  - destruct (exec_hook_state w0 t c w Hvalid Hreg Hst) as (w1 & Hc & Hst1).
    destruct (IH w1 Hst1) as (w2 & Hcs & Hst2).
    exists w2. split; [|exact Hst2].
    cbn [exec_all]. now rewrite (bind_returned _ _ w tt w1 Hc).
Qed.

(** C4, as amended.  The type-registration hook is stable and non-null
    within a process whose type registry accepts the registration.  From
    the start of a process (the static still zero) on a host whose registry
    accepts the type, there is one valid type identifier that every call of
    the hook returns, whatever calls of the file's entry points the host
    has made before it, earlier calls of the hook included.  (Where the
    registry refuses, the hook returns the invalid type: see
    [get_type_refused].) *)
Theorem get_type_stable_nonnull (w0 : World) :
  static_g_define_type_id w0 = G_TYPE_INVALID ->
  (g_type_register_static_simple
     g_object_get_type "FlutterLocalDbPlugin" (type_registry w0)).1
  <> G_TYPE_INVALID ->
  exists t : GType,
    t <> G_TYPE_INVALID
    /\ forall history : list Call,
         exists w1 w2,
           exec_all history w0 = Returned tt w1
           /\ flutter_local_db_plugin_get_type w1 = Returned t w2.
Proof.
  intros Hstart Haccept.
  set (t := (g_type_register_static_simple g_object_get_type
               "FlutterLocalDbPlugin" (type_registry w0)).1) in *.
  exists t. split; [exact Haccept|]. intros history.
  assert (Hst0 : hook_state w0 t w0) by (left; auto).
  destruct (exec_all_hook_state w0 t history Haccept eq_refl w0 Hst0)
    as (w1 & Hrun & Hst1).
  destruct (get_type_hook_state w0 t w1 Haccept eq_refl Hst1)
    as (w2 & Hget & _).
  exists w1, w2. auto.
Qed.

(** When the registry refuses the type, the first call of the hook has
    nothing to store and returns the invalid type: the acceptance assumed
    above is needed. *)
Remark get_type_refused w (registry' : TypeRegistry) :
  static_g_define_type_id w = G_TYPE_INVALID ->
  g_type_register_static_simple
    g_object_get_type "FlutterLocalDbPlugin" (type_registry w)
  = (G_TYPE_INVALID, registry') ->
  flutter_local_db_plugin_get_type w
  = Returned G_TYPE_INVALID (set_type_registry registry' w).
Proof.
  intros Hzero Hreg.
  unfold flutter_local_db_plugin_get_type, bind, g_once_init_enter.
  rewrite bool_decide_eq_true_2 by exact Hzero.
  unfold flutter_local_db_plugin_get_type_once. rewrite Hreg.
  unfold g_once_init_leave.
  destruct (decide (G_TYPE_INVALID = 0)) as [_|Hne]; [|now contradiction Hne].
  cbn. now rewrite Hzero.
Qed.

(** ** Registration states *)


(** ** Instances *)

Lemma exec_keeps_instances (c : Call) w w' :
  c <> CallNew -> exec c w = Returned tt w' -> instances w' = instances w.
Proof.
  intros Hc. destruct c as [| klass | | registrar]; cbn [exec].
  - unfold flutter_local_db_plugin_get_type, bind, g_once_init_enter,
      flutter_local_db_plugin_get_type_once, g_once_init_leave, ret.
    destruct (bool_decide (static_g_define_type_id w = 0)).
    + destruct (g_type_register_static_simple _ _ _) as [t registry'].
      destruct (decide (t = 0)); intros [= <-]; reflexivity.
    + intros [= <-]. reflexivity.
  - intros [= <-]. reflexivity.
  - contradiction.
  - intros [= <-]. reflexivity.
Qed.

(** C6. The plugin object carries no data of its own.  An instance is its
    base-type header and nothing else: the header determines the instance,
    and every header is the header of an instance.  The functions of the
    file keep it so: the two initialisers and the registration function
    return the world unchanged, and no entry point other than construction
    changes the table of instances. *)
Theorem plugin_carries_no_data :
  (forall p q : FlutterLocalDbPlugin,
     parent_instance p = parent_instance q -> p = q)
  /\ (forall p : FlutterLocalDbPlugin,
        mkFlutterLocalDbPlugin (parent_instance p) = p)
  /\ (forall g : GObject,
        parent_instance (mkFlutterLocalDbPlugin g) = g)
  /\ (forall self w, flutter_local_db_plugin_init self w = Returned tt w)
  /\ (forall klass w,
        flutter_local_db_plugin_class_init klass w = Returned tt w)
  /\ (forall registrar w,
        flutter_local_db_plugin_register_with_registrar registrar w
        = Returned tt w)
  /\ (forall (c : Call) w w',
        c <> CallNew -> exec c w = Returned tt w' ->
        instances w' = instances w).
Proof.
  split; [intros [g1] [g2]; cbn; now intros ->|].
  split; [now intros [g]|].
  split; [reflexivity|].
  split; [reflexivity|].
  split; [reflexivity|].
  split; [reflexivity|].
  exact exec_keeps_instances.
Qed.

(** What the construction of an instance of a valid type does, in full. *)
Lemma g_object_new_valid (object_type : GType) w :
  object_type <> G_TYPE_INVALID ->
  g_object_new object_type w
  = Returned (g_type_create_instance (dom (instances w)))
      (set_instances
         (<[g_type_create_instance (dom (instances w)) :=
              mkFlutterLocalDbPlugin (g_object_init object_type)]>
            (instances w)) w).
Proof.
  intros Hvalid. unfold g_object_new.
  destruct (decide (object_type = G_TYPE_INVALID)); [contradiction|].
  reflexivity.
Qed.

Lemma same_outside_refl (a : Addr) w : same_outside a w w.
Proof. repeat split. Qed.

Lemma same_outside_trans (a : Addr) w w1 w2 :
  same_outside a w w1 -> same_outside a w1 w2 -> same_outside a w w2.
Proof.
  intros (Hs1 & Hp1 & Ht1 & Hr1 & Hi1) (Hs2 & Hp2 & Ht2 & Hr2 & Hi2).
  repeat split; try congruence.
  intros other Hne. rewrite (Hi2 other Hne). exact (Hi1 other Hne).
Qed.

(** Storing an instance at one address changes the world at that address
    only. *)
Lemma same_outside_store (a : Addr) (obj : FlutterLocalDbPlugin) w :
  same_outside a w (set_instances (<[a := obj]> (instances w)) w).
Proof.
  repeat split. intros other Hne. cbn.
  rewrite lookup_insert_ne by congruence. reflexivity.
Qed.

(** One operation on a live instance completes, keeps the instance live,
    and changes nothing in the world but that instance. *)
Lemma instance_op_outside (a : Addr) (op : InstanceOp) w :
  is_Some (instances w !! a) ->
  exists w', instance_op a op w = Returned tt w'
             /\ is_Some (instances w' !! a)
             /\ same_outside a w w'.
Proof.
  intros [obj Hobj]. destruct op as [|f]; cbn [instance_op].
  - exists w. split; [apply init_returns|].
    split; [now exists obj | apply same_outside_refl].
  - unfold g_object_update. rewrite Hobj. eexists. split; [reflexivity|].
    split; [cbn; rewrite lookup_insert_eq; eauto|].
    apply same_outside_store.
Qed.

(** A run of operations on a live instance completes, and changes nothing
    in the world but that instance. *)
Lemma instance_ops_outside (a : Addr) (ops : list InstanceOp) :
  forall w, is_Some (instances w !! a) ->
  exists w', instance_ops a ops w = Returned tt w'
             /\ is_Some (instances w' !! a)
             /\ same_outside a w w'.
Proof.
  induction ops as [|op ops IH]; intros w Hlive.
  - exists w. split; [reflexivity|]. split; [exact Hlive|].
    apply same_outside_refl.
  - destruct (instance_op_outside a op w Hlive) as (w1 & Hop & Hlive1 & Hout1).
    destruct (IH w1 Hlive1) as (w2 & Hops & Hlive2 & Hout2).
    exists w2. cbn [instance_ops].
    rewrite (bind_returned _ _ w tt w1 Hop).
    split; [exact Hops|]. split; [exact Hlive2|].
    exact (same_outside_trans a w w1 w2 Hout1 Hout2).
Qed.

(** C7. Repeated construction produces independent instances with no
    shared mutable state.  On a host whose allocator never hands out a live
    address, constructing the plugin object twice gives two distinct live
    instances; each construction changes the world at the address of the
    new instance only; and any run of operations on either instance
    completes and changes nothing in the world but that one instance: not
    the other instance, not a static of the file, not the type registry,
    not a registrar. *)
Theorem constructed_instances_independent (object_type : GType) w :
  object_type <> G_TYPE_INVALID ->
  (forall live : gset Addr, g_type_create_instance live ∉ live) ->
  exists (a1 a2 : Addr) (w1 w2 : World),
    g_object_new object_type w = Returned a1 w1
    /\ g_object_new object_type w1 = Returned a2 w2
    /\ a1 <> a2
    /\ is_Some (instances w2 !! a1)
    /\ is_Some (instances w2 !! a2)
    /\ same_outside a1 w w1
    /\ same_outside a2 w1 w2
    /\ (forall ops : list InstanceOp,
          exists w3, instance_ops a1 ops w2 = Returned tt w3
                     /\ same_outside a1 w2 w3
                     /\ instances w3 !! a2 = instances w2 !! a2)
    /\ (forall ops : list InstanceOp,
          exists w3, instance_ops a2 ops w2 = Returned tt w3
                     /\ same_outside a2 w2 w3
                     /\ instances w3 !! a1 = instances w2 !! a1).
Proof.
  intros Hvalid Hfresh.
  set (a1 := g_type_create_instance (dom (instances w))).
  set (obj := mkFlutterLocalDbPlugin (g_object_init object_type)).
  set (w1 := set_instances (<[a1 := obj]> (instances w)) w).
  set (a2 := g_type_create_instance (dom (instances w1))).
  set (w2 := set_instances (<[a2 := obj]> (instances w1)) w1).
  assert (Hne : a1 <> a2).
  { intros Heq. apply (Hfresh (dom (instances w1))). fold a2. rewrite <- Heq.
    subst w1. cbn. rewrite dom_insert_L. set_solver. }
  assert (Hlive1 : is_Some (instances w2 !! a1)).
  { subst w2 w1. cbn. rewrite lookup_insert_ne by congruence.
    rewrite lookup_insert_eq. eauto. }
  assert (Hlive2 : is_Some (instances w2 !! a2)).
  { subst w2. cbn. rewrite lookup_insert_eq. eauto. }
  exists a1, a2, w1, w2.
  split; [exact (g_object_new_valid object_type w Hvalid)|].
  split; [exact (g_object_new_valid object_type w1 Hvalid)|].
  split; [exact Hne|]. split; [exact Hlive1|]. split; [exact Hlive2|].
  split; [apply same_outside_store|].
  split; [apply same_outside_store|].
  split; intros ops.
  - destruct (instance_ops_outside a1 ops w2 Hlive1)
      as (w3 & Hrun & _ & Hout).
    exists w3. split; [exact Hrun|]. split; [exact Hout|].
    destruct Hout as (_ & _ & _ & _ & Hothers).
    apply Hothers. congruence.
  - destruct (instance_ops_outside a2 ops w2 Hlive2)
      as (w3 & Hrun & _ & Hout).
    exists w3. split; [exact Hrun|]. split; [exact Hout|].
    destruct Hout as (_ & _ & _ & _ & Hothers).
    apply Hothers. congruence.
Qed.

(** C10. Construction performs no initialisation beyond the base object.
    The class initialiser and the instance initialiser return the world
    unchanged; the instance that the construction of a valid type yields is
    exactly the header as the base class initialised it; that state is the
    same in whatever world the object is constructed; and apart from the
    new entry in the table of instances the world is as before. *)
Theorem construction_is_bare_base_init (object_type : GType) w :
  object_type <> G_TYPE_INVALID ->
  (forall klass w0,
     flutter_local_db_plugin_class_init klass w0 = Returned tt w0)
  /\ (forall self w0, flutter_local_db_plugin_init self w0 = Returned tt w0)
  /\ exists (self : Addr) (w' : World),
       g_object_new object_type w = Returned self w'
       /\ instances w' !! self
          = Some (mkFlutterLocalDbPlugin (g_object_init object_type))
       /\ (forall v : World,
             exists (self_v : Addr) (v' : World),
               g_object_new object_type v = Returned self_v v'
               /\ instances v' !! self_v = instances w' !! self)
       /\ instances w'
          = <[self := mkFlutterLocalDbPlugin (g_object_init object_type)]>
              (instances w)
       /\ static_g_define_type_id w' = static_g_define_type_id w
       /\ flutter_local_db_plugin_parent_class w'
          = flutter_local_db_plugin_parent_class w
       /\ type_registry w' = type_registry w
       /\ registrars w' = registrars w.
Proof.
  intros Hvalid.
  split; [reflexivity|]. split; [reflexivity|].
  eexists _, _. split; [exact (g_object_new_valid object_type w Hvalid)|].
  cbn. rewrite lookup_insert_eq. split; [reflexivity|].
  split; [|repeat split].
  intros v. eexists _, _.
  split; [exact (g_object_new_valid object_type v Hvalid)|].
  cbn. now rewrite lookup_insert_eq.
Qed.

(** ** The contrast: a plugin that does register a channel *)

(** On a valid registrar the channel-based registration is observable: it
    leaves two recorded interactions and a channel that was not there.  The
    frame properties of the empty function are therefore not properties of
    the model alone. *)
Remark channel_based_register_observable registrar w :
  registrars w !! registrar = Some (mkRegistrar [] ∅) ->
  exists w',
    channel_based_register_with_registrar registrar w = Returned tt w'
    /\ interactions <$> registrars w' !! registrar
       = Some [GetMessenger; SetMessageHandler "flutter_local_db"]
    /\ channel_exists w' registrar "flutter_local_db"
    /\ ~ channel_exists w registrar "flutter_local_db".
Proof.
  intros Hvalid.
  unfold channel_based_register_with_registrar, bind,
    fl_plugin_registrar_get_messenger,
    fl_binary_messenger_set_message_handler_on_channel.
  rewrite Hvalid. cbn. rewrite lookup_insert_eq. cbn.
  eexists. split; [reflexivity|].
  unfold channel_exists. cbn. rewrite lookup_insert_eq, Hvalid. cbn.
  split; [reflexivity|]. set_solver.
Qed.

(** On an invalid handle the channel-based registration faults, where the
    empty function returns. *)
Remark channel_based_register_faults registrar w :
  registrars w !! registrar = None ->
  channel_based_register_with_registrar registrar w
  = Failed (Signalled SIGSEGV).
Proof.
  intros Hinvalid.
  unfold channel_based_register_with_registrar, bind,
    fl_plugin_registrar_get_messenger.
  now rewrite Hinvalid.
Qed.

End Properties.

(** * The theorems at concrete inputs

    Each theorem above that has assumptions is applied here on the concrete
    host, at inputs where the assumptions hold by evaluation. *)

Section Reference.
#[local] Existing Instance reference_host.

(** The model runs: a start-up sequence on the concrete host registers the
    type once, builds two instances and leaves the registrar alone. *)
Example reference_run :
  match
    exec_all [CallNew; CallGetType; CallRegister 4096; CallNew;
              CallRegister NULL] reference_world
  with
  | Returned _ w =>
      static_g_define_type_id w = 256
      /\ map_to_list (type_registry w) = [("FlutterLocalDbPlugin", 256)]
      /\ dom (instances w) = {[1; 2]}
      /\ registrars w = registrars reference_world
  | Failed _ => False
  end.
Proof. vm_compute. repeat split. Qed.

(** C1 at the start-up world: the registrar at address 4096 is valid and has
    nothing recorded. *)
Lemma register_no_side_effects_reference :
  registrars reference_world !! 4096 = Some (mkRegistrar [] ∅)
  /\ exists w',
       flutter_local_db_plugin_register_with_registrar 4096 reference_world
       = Returned tt w'
       /\ w' = reference_world
       /\ registrars w' !! 4096 = Some (mkRegistrar [] ∅)
       /\ (interactions (mkRegistrar [] ∅) = [] ->
           interactions <$> registrars w' !! 4096 = Some []).
Proof.
  split; [reflexivity|].
  apply (register_no_side_effects 4096 (mkRegistrar [] ∅) reference_world).
  reflexivity.
Defined.

(** C4 at the start-up world: the static is zero and the empty registry
    accepts the type (with identifier 256). *)
Lemma get_type_stable_nonnull_reference :
  exists t : GType,
    t <> G_TYPE_INVALID
    /\ forall history : list Call,
         exists w1 w2,
           exec_all history reference_world = Returned tt w1
           /\ flutter_local_db_plugin_get_type w1 = Returned t w2.
Proof.
  apply (get_type_stable_nonnull reference_world).
  - reflexivity.
  - vm_compute. discriminate.
Defined.

(** The concrete allocator never hands out a live address. *)
Lemma reference_allocator_fresh (live : gset Addr) :
  g_type_create_instance live ∉ live.
Proof.
  intros Hin. apply (is_fresh ({[NULL]} ∪ live)).
  apply elem_of_union_r. exact Hin.
Qed.

(** C7 at the start-up world, for the type 256. *)
Lemma constructed_instances_independent_reference :
  exists (a1 a2 : Addr) (w1 w2 : World),
    g_object_new 256 reference_world = Returned a1 w1
    /\ g_object_new 256 w1 = Returned a2 w2
    /\ a1 <> a2
    /\ is_Some (instances w2 !! a1)
    /\ is_Some (instances w2 !! a2)
    /\ same_outside a1 reference_world w1
    /\ same_outside a2 w1 w2
    /\ (forall ops : list InstanceOp,
          exists w3, instance_ops a1 ops w2 = Returned tt w3
                     /\ same_outside a1 w2 w3
                     /\ instances w3 !! a2 = instances w2 !! a2)
    /\ (forall ops : list InstanceOp,
          exists w3, instance_ops a2 ops w2 = Returned tt w3
                     /\ same_outside a2 w2 w3
                     /\ instances w3 !! a1 = instances w2 !! a1).
Proof.
  apply (constructed_instances_independent 256 reference_world).
  - discriminate.
  - exact reference_allocator_fresh.
Defined.

(** C9 for three calls on the registrar of the start-up world. *)
Lemma register_idempotent_reference :
  (1 <= 3)%nat
  /\ repeat_call 3
       (flutter_local_db_plugin_register_with_registrar 4096) reference_world
     = flutter_local_db_plugin_register_with_registrar 4096 reference_world.
Proof.
  split; [lia|].
  apply (register_idempotent 3 4096 reference_world). lia.
Defined.

(** C10 at the start-up world, for the type 256. *)
Lemma construction_is_bare_base_init_reference :
  exists (self : Addr) (w' : World),
    g_object_new 256 reference_world = Returned self w'
    /\ instances w' !! self = Some (mkFlutterLocalDbPlugin (256, 1)).
Proof.
  destruct (construction_is_bare_base_init 256 reference_world)
    as (_ & _ & self & w' & Hnew & Hobj & _).
  - discriminate.
  - exists self, w'. split; [exact Hnew | exact Hobj].
Defined.

(** C4 as first stated, without a condition on the host, does not hold:
    in the process where the registry already holds a type of that name,
    the hook returns no valid type identifier. *)
Lemma get_type_null_on_taken_name :
  ~ exists (t : GType) (w' : World),
      t <> G_TYPE_INVALID
      /\ flutter_local_db_plugin_get_type reference_taken_world
         = Returned t w'.
Proof.
  intros (t & w' & Hvalid & Hget).
  assert (Hrun : flutter_local_db_plugin_get_type reference_taken_world
                 = Returned G_TYPE_INVALID reference_taken_world)
    by (vm_compute; reflexivity).
  rewrite Hrun in Hget. injection Hget as <- _.
  now apply Hvalid.
Qed.


End Reference.

(** * Call histories

    What the entry points of the file do together, over any sequence of
    calls the host may make. *)

Section Histories.
Context `{Host}.

Implicit Types (w : World) (history : list Call).

(** The hook in every state of the static: what it returns, and the parts
    of the world it leaves alone. *)
Lemma get_type_cases w :
  exists (t : GType) (w' : World),
    flutter_local_db_plugin_get_type w = Returned t w'
    /\ static_g_define_type_id w' = t
    /\ instances w' = instances w
    /\ registrars w' = registrars w
    /\ flutter_local_db_plugin_parent_class w'
       = flutter_local_db_plugin_parent_class w
    /\ (static_g_define_type_id w <> G_TYPE_INVALID -> w' = w).
Proof.
  destruct (decide (static_g_define_type_id w = G_TYPE_INVALID))
    as [Hzero|Hset].
  - unfold flutter_local_db_plugin_get_type, bind, g_once_init_enter.
    rewrite bool_decide_eq_true_2 by exact Hzero.
    unfold flutter_local_db_plugin_get_type_once.
    destruct (g_type_register_static_simple _ _ _) as [t registry'].
    unfold g_once_init_leave. destruct (decide (t = 0)) as [Ht|Ht].
    + eexists _, _. split; [reflexivity|]. cbn.
      repeat split. contradiction.
    + eexists _, _. split; [reflexivity|]. cbn.
      repeat split. contradiction.
  - exists (static_g_define_type_id w), w.
    split; [exact (get_type_initialised w Hset)|]. auto.
Qed.

(** One call of an entry point: it returns, and this is the world it
    returns. *)
Lemma exec_step (c : Call) w :
  exists w',
    exec c w = Returned tt w'
    /\ registrars w' = registrars w
    /\ (static_g_define_type_id w <> G_TYPE_INVALID ->
        static_g_define_type_id w' = static_g_define_type_id w
        /\ type_registry w' = type_registry w)
    /\ instances w'
       = match c with
         | CallNew =>
             if decide (static_g_define_type_id w' = G_TYPE_INVALID)
             then instances w
             else <[g_type_create_instance (dom (instances w)) :=
                      bare_instance (static_g_define_type_id w')]>
                    (instances w)
         | _ => instances w
         end
    /\ flutter_local_db_plugin_parent_class w'
       = match c with
         | CallClassInit klass => g_type_class_peek_parent klass
         | _ => flutter_local_db_plugin_parent_class w
         end.
Proof.
  destruct c as [| klass | | registrar]; cbn [exec].
  - destruct (get_type_cases w) as (t & w1 & Hget & Ht & Hi & Hr & Hp & Hfix).
    exists w1. rewrite (bind_returned _ _ w t w1 Hget).
    split; [reflexivity|]. split; [exact Hr|].
    split; [intros Hset; now rewrite (Hfix Hset)|]. auto.
  - eexists. split; [reflexivity|]. cbn. auto.
  - destruct (get_type_cases w) as (t & w1 & Hget & Ht & Hi & Hr & Hp & Hfix).
    rewrite (bind_returned _ _ w t w1 Hget).
    unfold g_object_new, bare_instance.
    destruct (decide (t = G_TYPE_INVALID)) as [Hbad|Hgood].
    + exists w1. split; [reflexivity|]. split; [exact Hr|].
      split; [intros Hset; now rewrite (Hfix Hset)|].
      split; [|exact Hp].
      destruct (decide (static_g_define_type_id w1 = G_TYPE_INVALID));
        [exact Hi | congruence].
    + eexists. split; [reflexivity|]. cbn. split; [exact Hr|].
      split; [intros Hset; now rewrite (Hfix Hset)|].
      split; [|exact Hp].
      destruct (decide (static_g_define_type_id w1 = G_TYPE_INVALID));
        [congruence|]. now rewrite Hi, Ht.
  - exists w. split; [reflexivity|]. auto.
Qed.

Lemma exec_all_cons (c : Call) history w w1 :
  exec c w = Returned tt w1 ->
  exec_all (c :: history) w = exec_all history w1.
Proof. intros Hc. cbn [exec_all]. exact (bind_returned _ _ w tt w1 Hc). Qed.

(** X1. The calls of the registration function can be left out of any
    history: the outcome, world included, is the same. *)
Theorem register_calls_erasable history w :
  exec_all (without_register history) w = exec_all history w.
Proof.
  revert w. induction history as [|c rest IH]; intros w; [reflexivity|].
  destruct (exec_step c w) as (w1 & Hc & _).
  destruct c as [| klass | | registrar]; cbn [without_register].
  1-3: rewrite !(exec_all_cons _ _ w w1 Hc); apply IH.
  rewrite (exec_all_cons _ _ w w1 Hc). cbn in Hc. injection Hc as <-.
  apply IH.
Qed.

(** X2. No sequence of calls of the file's entry points changes any
    registrar: the world that a history returns, from any world, has the
    table of registrars the process started with. *)
Theorem entry_points_never_touch_registrars history w w' :
  exec_all history w = Returned tt w' ->
  registrars w' = registrars w.
Proof.
  revert w. induction history as [|c rest IH]; intros w Hrun.
  - cbn in Hrun. injection Hrun as <-. reflexivity.
  - destruct (exec_step c w) as (w1 & Hc & Hr1 & _).
    rewrite (exec_all_cons _ _ w w1 Hc) in Hrun.
    rewrite (IH w1 Hrun). exact Hr1.
Qed.

(** X3. The type identifier is written once.  In a process whose static
    already holds an identifier, no history changes the static or touches
    the type registry again. *)
Theorem type_id_write_once history w :
  static_g_define_type_id w <> G_TYPE_INVALID ->
  exists w',
    exec_all history w = Returned tt w'
    /\ static_g_define_type_id w' = static_g_define_type_id w
    /\ type_registry w' = type_registry w.
Proof.
  revert w. induction history as [|c rest IH]; intros w Hset.
  - exists w. auto.
  - destruct (exec_step c w) as (w1 & Hc & _ & Hfix & _).
    destruct (Hfix Hset) as [Hs1 Ht1].
    destruct (IH w1) as (w2 & Hrest & Hs2 & Ht2); [congruence|].
    exists w2. rewrite (exec_all_cons _ _ w w1 Hc).
    split; [exact Hrest|]. split; congruence.
Qed.

(** X4. The class initialiser of the file does not disturb the parent
    class: after any history the recorded parent class is the parent of the
    class structure that was initialised last, and it is what it was when
    no class initialisation has run. *)
Theorem parent_class_of_last_class_init history w :
  exists w',
    exec_all history w = Returned tt w'
    /\ flutter_local_db_plugin_parent_class w'
       = match last_class_init history with
         | Some klass => g_type_class_peek_parent klass
         | None => flutter_local_db_plugin_parent_class w
         end.
Proof.
  revert w. induction history as [|c rest IH]; intros w.
  - exists w. split; reflexivity.
  - destruct (exec_step c w) as (w1 & Hc & _ & _ & _ & Hp1).
    destruct (IH w1) as (w2 & Hrest & Hp2).
    exists w2. rewrite (exec_all_cons _ _ w w1 Hc).
    split; [exact Hrest|]. rewrite Hp2.
    destruct c as [| klass | | registrar]; cbn [last_class_init];
      destruct (last_class_init rest); congruence.
Qed.

(** X5. The calls of the instance initialiser can be left out of any run
    of operations on an instance: the outcome, failures included, is the
    same. *)
Theorem init_calls_erasable (self : Addr) (ops : list InstanceOp) w :
  instance_ops self (without_init ops) w = instance_ops self ops w.
Proof.
  revert w. induction ops as [|op rest IH]; intros w; [reflexivity|].
  destruct op as [|f]; cbn [without_init instance_ops instance_op].
  - unfold bind at 1.
    rewrite init_returns. apply IH.
  - unfold bind.
    destruct (g_object_update self f w) as [[] w1|cond]; [apply IH|reflexivity].
Qed.

(** X6. Instances are never lost or rewritten by the entry points.  On a
    host whose allocator never hands out a live address, every instance
    that is live before a history is live after it, with the same state. *)
Theorem instances_survive history w :
  (forall live : gset Addr, g_type_create_instance live ∉ live) ->
  exists w',
    exec_all history w = Returned tt w'
    /\ forall (self : Addr) (obj : FlutterLocalDbPlugin),
         instances w !! self = Some obj -> instances w' !! self = Some obj.
Proof.
  intros Hfresh. revert w.
  induction history as [|c rest IH]; intros w.
  - exists w. split; [reflexivity|auto].
  - destruct (exec_step c w) as (w1 & Hc & _ & _ & Hi1 & _).
    destruct (IH w1) as (w2 & Hrest & Hkeep).
    exists w2. rewrite (exec_all_cons _ _ w w1 Hc).
    split; [exact Hrest|]. intros self obj Hlive. apply Hkeep.
    rewrite Hi1. destruct c as [| klass | | registrar]; try exact Hlive.
    destruct (decide (static_g_define_type_id w1 = G_TYPE_INVALID));
      [exact Hlive|].
    rewrite lookup_insert_ne; [exact Hlive|].
    intros <-. apply (Hfresh (dom (instances w))).
    apply elem_of_dom. eauto.
Qed.

(** One call in a process whose registry accepts the type: the hook state
    is kept, and only a construction changes the table of instances, by one
    bare instance of the registered type at the address the allocator
    gives. *)
Lemma exec_accepted (w0 : World) (t : GType) (c : Call) w :
  t <> G_TYPE_INVALID ->
  (g_type_register_static_simple
     g_object_get_type "FlutterLocalDbPlugin" (type_registry w0)).1 = t ->
  hook_state w0 t w ->
  exists w',
    exec c w = Returned tt w'
    /\ hook_state w0 t w'
    /\ instances w'
       = match c with
         | CallNew =>
             <[g_type_create_instance (dom (instances w)) :=
                 bare_instance t]> (instances w)
         | _ => instances w
         end.
Proof.
  intros Hvalid Hreg Hst.
  destruct c as [| klass | | registrar].
  - destruct (exec_step CallGetType w) as (w1 & Hc & _ & _ & Hi & _).
    destruct (exec_hook_state w0 t CallGetType w Hvalid Hreg Hst)
      as (w1' & Hc' & Hst1).
    rewrite Hc in Hc'. injection Hc' as <-. eauto.
  - eexists. split; [reflexivity|]. split; [exact Hst|reflexivity].
  - destruct (get_type_hook_state w0 t w Hvalid Hreg Hst)
      as (w1 & Hget & Hs1).
    destruct (get_type_cases w) as (t' & w1' & Hget' & _ & Hi & _).
    rewrite Hget in Hget'. injection Hget' as <- <-.
    eexists. split; [|split].
    + cbn [exec]. rewrite (bind_returned _ _ w t w1 Hget).
      rewrite (bind_returned _ _ w1 _ _ (g_object_new_valid t w1 Hvalid)).
      reflexivity.
    + right. exact Hs1.
    + cbn. now rewrite Hi.
  - exists w. split; [reflexivity|]. split; [exact Hst|reflexivity].
Qed.

(** X7. Every instance the host constructs is a bare one.  From the start
    of a process on a host whose registry accepts the type, after any
    history every live instance either was live at the start or is exactly
    the base header of the registered type. *)
Theorem constructed_instances_bare (w0 : World) history :
  static_g_define_type_id w0 = G_TYPE_INVALID ->
  (g_type_register_static_simple
     g_object_get_type "FlutterLocalDbPlugin" (type_registry w0)).1
  <> G_TYPE_INVALID ->
  exists w',
    exec_all history w0 = Returned tt w'
    /\ forall (self : Addr) (obj : FlutterLocalDbPlugin),
         instances w' !! self = Some obj ->
         instances w0 !! self = Some obj
         \/ obj = bare_instance
                    (g_type_register_static_simple
                       g_object_get_type "FlutterLocalDbPlugin"
                       (type_registry w0)).1.
Proof.
  intros Hstart Haccept.
  set (t := (g_type_register_static_simple g_object_get_type
               "FlutterLocalDbPlugin" (type_registry w0)).1) in *.
  assert (Hgen : forall w, hook_state w0 t w ->
            exists w', exec_all history w = Returned tt w'
              /\ forall self obj, instances w' !! self = Some obj ->
                   instances w !! self = Some obj \/ obj = bare_instance t).
  { induction history as [|c rest IH]; intros w Hst.
    - exists w. split; [reflexivity|auto].
    - destruct (exec_accepted w0 t c w Haccept eq_refl Hst)
        as (w1 & Hc & Hst1 & Hi1).
      destruct (IH w1 Hst1) as (w2 & Hrest & Hbare).
      exists w2. rewrite (exec_all_cons _ _ w w1 Hc).
      split; [exact Hrest|]. intros self obj Hlive.
      destruct (Hbare self obj Hlive) as [Hold|Hnew]; [|now right].
      rewrite Hi1 in Hold.
      destruct c as [| klass | | registrar]; try (now left).
      destruct (decide (g_type_create_instance (dom (instances w)) = self))
        as [Heq|Hne].
      + subst self. rewrite lookup_insert_eq in Hold. right. congruence.
      + rewrite lookup_insert_ne in Hold by exact Hne. now left. }
  apply Hgen. left. auto.
Qed.

(** X8. One instance per construction.  From the start of a process on a
    host whose registry accepts the type and whose allocator never hands
    out a live address, the number of live instances after a history is the
    number at the start plus the number of constructions in the history. *)
Theorem instances_counted (w0 : World) history :
  static_g_define_type_id w0 = G_TYPE_INVALID ->
  (g_type_register_static_simple
     g_object_get_type "FlutterLocalDbPlugin" (type_registry w0)).1
  <> G_TYPE_INVALID ->
  (forall live : gset Addr, g_type_create_instance live ∉ live) ->
  exists w',
    exec_all history w0 = Returned tt w'
    /\ size (instances w')
       = (size (instances w0) + count_new history)%nat.
Proof.
  intros Hstart Haccept Hfresh.
  set (t := (g_type_register_static_simple g_object_get_type
               "FlutterLocalDbPlugin" (type_registry w0)).1) in *.
  assert (Hgen : forall w, hook_state w0 t w ->
            exists w', exec_all history w = Returned tt w'
              /\ size (instances w')
                 = (size (instances w) + count_new history)%nat).
  { induction history as [|c rest IH]; intros w Hst.
    - exists w. split; [reflexivity|]. cbn. lia.
    - destruct (exec_accepted w0 t c w Haccept eq_refl Hst)
        as (w1 & Hc & Hst1 & Hi1).
      destruct (IH w1 Hst1) as (w2 & Hrest & Hsize).
      exists w2. rewrite (exec_all_cons _ _ w w1 Hc).
      split; [exact Hrest|]. rewrite Hsize, Hi1.
      destruct c as [| klass | | registrar]; cbn [count_new]; try reflexivity.
      rewrite map_size_insert_None; [lia|].
      apply not_elem_of_dom. apply Hfresh. }
  apply Hgen. left. auto.
Qed.

End Histories.

(** * The history theorems at concrete inputs *)

Section ReferenceHistories.
#[local] Existing Instance reference_host.

(** X2 on a start-up sequence from the start-up world, with the world the
    sequence returns. *)
Lemma entry_points_never_touch_registrars_reference :
  exists w',
    exec_all [CallNew; CallGetType; CallRegister 4096; CallClassInit 512;
              CallRegister NULL] reference_world = Returned tt w'
    /\ registrars w' = registrars reference_world.
Proof.
  eexists. split; [vm_compute; reflexivity|].
  apply (entry_points_never_touch_registrars
           [CallNew; CallGetType; CallRegister 4096; CallClassInit 512;
            CallRegister NULL] reference_world).
  vm_compute. reflexivity.
Defined.

(** X3 on the start-up world once the static holds the identifier 256. *)
Lemma type_id_write_once_reference :
  static_g_define_type_id (set_static_g_define_type_id 256 reference_world)
  <> G_TYPE_INVALID
  /\ exists w',
       exec_all [CallNew; CallGetType; CallRegister 4096; CallClassInit 512]
         (set_static_g_define_type_id 256 reference_world)
       = Returned tt w'
       /\ static_g_define_type_id w' = 256
       /\ type_registry w' = ∅.
Proof.
  split; [discriminate|].
  apply (type_id_write_once
           [CallNew; CallGetType; CallRegister 4096; CallClassInit 512]
           (set_static_g_define_type_id 256 reference_world)).
  discriminate.
Defined.

(** The allocator of the concrete host never hands out a live address. *)
Lemma reference_allocator_avoids_live (live : gset Addr) :
  g_type_create_instance live ∉ live.
Proof.
  intros Hin. apply (is_fresh ({[NULL]} ∪ live)).
  apply elem_of_union_r. exact Hin.
Qed.

(** X6 on a world with one live instance, at address 1. *)
Lemma instances_survive_reference :
  exists w',
    exec_all [CallNew; CallRegister 4096; CallNew]
      (set_instances {[ 1 := bare_instance 256 ]} reference_world)
    = Returned tt w'
    /\ forall (self : Addr) (obj : FlutterLocalDbPlugin),
         instances (set_instances {[ 1 := bare_instance 256 ]}
                      reference_world) !! self = Some obj ->
         instances w' !! self = Some obj.
Proof.
  apply (instances_survive [CallNew; CallRegister 4096; CallNew]
           (set_instances {[ 1 := bare_instance 256 ]} reference_world)).
  exact reference_allocator_avoids_live.
Defined.

(** X7 from the start-up world. *)
Lemma constructed_instances_bare_reference :
  exists w',
    exec_all [CallNew; CallGetType; CallNew] reference_world = Returned tt w'
    /\ forall (self : Addr) (obj : FlutterLocalDbPlugin),
         instances w' !! self = Some obj ->
         instances reference_world !! self = Some obj
         \/ obj = bare_instance
                    (g_type_register_static_simple
                       g_object_get_type "FlutterLocalDbPlugin"
                       (type_registry reference_world)).1.
Proof.
  apply (constructed_instances_bare reference_world
           [CallNew; CallGetType; CallNew]).
  - reflexivity.
  - vm_compute. discriminate.
Defined.

(** X8 from the start-up world: two constructions, two instances. *)
Lemma instances_counted_reference :
  exists w',
    exec_all [CallNew; CallGetType; CallRegister 4096; CallNew]
      reference_world = Returned tt w'
    /\ size (instances w')
       = Nat.add (size (instances reference_world))
           (count_new [CallNew; CallGetType; CallRegister 4096; CallNew]).
Proof.
  apply (instances_counted reference_world
           [CallNew; CallGetType; CallRegister 4096; CallNew]).
  - reflexivity.
  - vm_compute. discriminate.
  - exact reference_allocator_avoids_live.
Defined.

End ReferenceHistories.
